(** * pywot demo: the virtual weather station

    A shallow embedding of [demo/virtual_weather_station.py]: the URL
    resolver [create_url], the constructor of [WeatherStation] and its
    polling coroutine [get_weather_data], followed by the properties
    established about them. *)

From Stdlib Require Import ZArith String Ascii List Bool.
From stdpp Require Import base option gmap strings.

Local Open Scope string_scope.
Local Open Scope Z_scope.

(** ** Python objects and exceptions *)

Module Py.

(** The objects [json.loads] can return.  The numeric payload is carried
    around by the station and never inspected. *)
#[warnings="-register-all"]
Inductive value : Type :=
| VNone
| VBool (b : bool)
| VNum (n : Z)
| VStr (s : string)
| VList (l : list value)
| VDict (d : gmap string value).

(** The exceptions that can occur in the station.  [CancelledError] is
    [asyncio.CancelledError]; [TimeoutError] is what [async_timeout] raises
    when [seconds_for_timeout] runs out; [ClientError] stands for the
    transport errors of [aiohttp]; [JSONDecodeError] is what [json.loads]
    raises on a malformed body; [KeyError] and [TypeError] come from
    subscripting. *)
Inductive exn : Type :=
| CancelledError
| TimeoutError
| ClientError (msg : string)
| JSONDecodeError (msg : string)
| KeyError (key : string)
| TypeError.

(** [except asyncio.CancelledError] matches exactly the cancellation. *)
Definition is_cancelled (e : exn) : bool :=
  match e with
  | CancelledError => true
  | _ => false
  end.

(** Outcome of evaluating an expression or running a statement. *)
Inductive result (A : Type) : Type :=
| Ok (a : A)
| Raise (e : exn).
Arguments Ok {A} a.
Arguments Raise {A} e.

(** [obj[key]] for a string key: a dict is searched and a missing key is a
    [KeyError]; no other JSON object can be subscripted by a string. *)
Definition getitem (obj : value) (key : string) : result value :=
  match obj with
  | VDict d =>
      match d !! key with
      | Some v => Ok v
      | None => Raise (KeyError key)
      end
  | _ => Raise TypeError
  end.

(** [template.format(args...)] for templates whose replacement fields are
    all the automatic field [{}]; the doubled braces are the escapes.  The
    arguments are strings and are inserted as they are, without being
    scanned again.  [None] stands for the [IndexError] or [ValueError] of a
    template that does not fit. *)
Fixpoint format (template : string) (args : list string) : option string :=
  match template with
  | EmptyString => Some EmptyString
  | String c rest =>
      if Ascii.eqb c "{" then
        match rest with
        | String c' rest' =>
            if Ascii.eqb c' "}" then
              match args with
              | a :: args' => String.app a <$> format rest' args'
              | [] => None
              end
            else if Ascii.eqb c' "{" then String "{" <$> format rest' args
            else None
        | EmptyString => None
        end
      else if Ascii.eqb c "}" then
        match rest with
        | String c' rest' =>
            if Ascii.eqb c' "}" then String "}" <$> format rest' args
            else None
        | EmptyString => None
        end
      else String c <$> format rest args
  end.

End Py.

Import Py.

(** ** The source resolver *)

(** The configuration options declared in [required_config]. *)
Record config : Type := {
  weather_underground_api_key : string;
  state_code : string;
  city_name : string;
  seconds_for_timeout : Z
}.

Definition default_config : config := {|
  weather_underground_api_key := "not a real key";
  state_code := "OR";
  city_name := "Corvallis";
  seconds_for_timeout := 10
|}.

Definition url_template : string :=
  "http://api.wunderground.com/api/{}/conditions/q/{}/{}.json".

(** [create_url(config, local_namespace, args)]: the aggregation function
    of [target_url].  The last two arguments are those configman passes to
    every aggregation; the function does not look at them. *)
Definition create_url {NS ARGS : Type}
    (cfg : config) (local_namespace : NS) (args : ARGS) : option string :=
  format url_template
    [weather_underground_api_key cfg; state_code cfg; city_name cfg].

(** ** Exposed properties *)

(** Modelled from the spec: the property objects that
    [WoTThing.wot_property] registers belong to the pywot library and are
    not part of the demo source.  A property is a named value holder that
    carries a description and a unit and starts at its initial value. *)
Record wot_property : Type := {
  prop_value : value;
  prop_description : string;
  prop_units : string
}.

(** One [WoTThing.wot_property(...)] statement of the class body.
    [attribute] is the class attribute the descriptor is bound to, the
    other fields are the keyword arguments of the call. *)
Record declaration : Type := {
  attribute : string;
  name : string;
  initial_value : value;
  description : string;
  units : string;
  value_source_fn : bool
}.

Definition temperature : declaration := {|
  attribute := "temperature";
  name := "temperature";
  initial_value := VNum 0;
  description := "the temperature in ℉";
  units := "℉";
  value_source_fn := true
|}.

Definition barometic_pressure : declaration := {|
  attribute := "barometic_pressure";
  name := "barometric_pressure";
  initial_value := VNum 30;
  description := "the air pressure in inches";
  units := "in";
  value_source_fn := false
|}.

Definition wind_speed : declaration := {|
  attribute := "wind_speed";
  name := "wind_speed";
  initial_value := VNum 30;
  description := "the wind speed in mph";
  units := "mph";
  value_source_fn := false
|}.

(** The property declarations of [WeatherStation], in source order. *)
Definition declarations : list declaration :=
  [temperature; barometic_pressure; wind_speed].

(** The property a class attribute is a descriptor of, if any: each
    declaration binds what [WoTThing.wot_property] returns to the class
    attribute on the left of its [=]. *)
Definition descriptor (attr : string) : option string :=
  name <$> List.find (fun d => String.eqb (attribute d) attr) declarations.

(** Modelled from the spec: the property object pywot creates for a
    declaration when the instance is constructed. *)
Definition create_wot_property (d : declaration) : wot_property := {|
  prop_value := initial_value d;
  prop_description := description d;
  prop_units := units d
|}.

(** ** The weather station *)

(** An instance: the two snapshots kept by [__init__], the registered
    properties by name, and the attributes that assignments create on the
    instance itself. *)
Record WeatherStation : Type := {
  fallback_weather_data : value;
  weather_data : value;
  properties : gmap string wot_property;
  instance_dict : gmap string value
}.

Inductive level : Type := DEBUG | INFO | WARNING | ERROR | CRITICAL.

(** A record handed to [logging]: severity, message template and the
    exception formatted into it. *)
Record log_record : Type := {
  levelname : level;
  msg : string;
  cause : exn
}.

(** What a coroutine of the station runs against: the instance and the
    records logged so far, oldest first. *)
Record world : Type := {
  self : WeatherStation;
  log : list log_record
}.

(** [WeatherStation.__init__]: the base class registers the declared
    properties under their names, then the two snapshots are set. *)
Definition init : WeatherStation := {|
  fallback_weather_data :=
    VDict {[ "current_observation" :=
               VDict (<["temp_f" := VNum 0]>
                        (<["pressure_in" := VNum 0]>
                           {[ "wind_mph" := VNum 0 ]})) ]};
  weather_data := VDict ∅;
  properties :=
    list_to_map (List.map (fun d => (name d, create_wot_property d)) declarations);
  instance_dict := ∅
|}.

(** A freshly constructed station, nothing logged yet. *)
Definition startup : world := {| self := init; log := [] |}.

(** ** Statements: state and exceptions *)

Definition M (A : Type) : Type := world -> result A * world.

Definition ret {A} (a : A) : M A := fun w => (Ok a, w).

Definition raise {A} (e : exn) : M A := fun w => (Raise e, w).

Definition bind {A B} (m : M A) (k : A -> M B) : M B :=
  fun w =>
    match m w with
    | (Ok a, w') => k a w'
    | (Raise e, w') => (Raise e, w')
    end.

(** [try: body / except ... as e: handler e]; the handler sees the state
    the body left behind. *)
Definition try_except {A} (body : M A) (handler : exn -> M A) : M A :=
  fun w =>
    match body w with
    | (Ok a, w') => (Ok a, w')
    | (Raise e, w') => handler e w'
    end.

Declare Scope py_scope.
Delimit Scope py_scope with py.
Notation "x <- m ;; k" := (bind m (fun x => k))
  (at level 100, m at next level, right associativity) : py_scope.
Notation "m ;; k" := (bind m (fun _ => k))
  (at level 100, right associativity) : py_scope.
Local Open Scope py_scope.

Definition lift {A} (r : result A) : M A := fun w => (r, w).

Definition get_self : M WeatherStation := fun w => (Ok (self w), w).

Definition put_self (s : WeatherStation) : M unit :=
  fun w => (Ok tt, {| self := s; log := log w |}).

(** [self.fallback_weather_data = v] *)
Definition set_fallback_weather_data (v : value) : M unit :=
  s <- get_self ;;
  put_self {| fallback_weather_data := v;
              weather_data := weather_data s;
              properties := properties s;
              instance_dict := instance_dict s |}.

(** [self.weather_data = v] *)
Definition set_weather_data (v : value) : M unit :=
  s <- get_self ;;
  put_self {| fallback_weather_data := fallback_weather_data s;
              weather_data := v;
              properties := properties s;
              instance_dict := instance_dict s |}.

(** The property object with a new value. *)
Definition with_value (v : value) (p : wot_property) : wot_property := {|
  prop_value := v;
  prop_description := prop_description p;
  prop_units := prop_units p
|}.

(** Modelled from the spec: the setter of the descriptor returned by
    [WoTThing.wot_property], which is pywot's.  The property object
    registered under name [n] takes the new value, in place; nothing else
    of it changes. *)
Definition set_property (n : string) (v : value) : M unit :=
  s <- get_self ;;
  match properties s !! n with
  | Some _ =>
      put_self {| fallback_weather_data := fallback_weather_data s;
                  weather_data := weather_data s;
                  properties := alter (with_value v) n (properties s);
                  instance_dict := instance_dict s |}
  | None => raise (KeyError n)
  end.

(** [self.attr = v]: a descriptor of the class takes the assignment,
    any other name becomes an attribute of the instance. *)
Definition setattr (attr : string) (v : value) : M unit :=
  match descriptor attr with
  | Some n => set_property n v
  | None =>
      s <- get_self ;;
      put_self {| fallback_weather_data := fallback_weather_data s;
                  weather_data := weather_data s;
                  properties := properties s;
                  instance_dict := <[ attr := v ]> (instance_dict s) |}
  end.

(** [logging.critical(template, e)] *)
Definition logging_critical (template : string) (e : exn) : M unit :=
  fun w =>
    (Ok tt,
     {| self := self w;
        log := log w ++ [ {| levelname := CRITICAL; msg := template; cause := e |} ] |}).

(** ** The polling coroutine *)

(** What the outside world does during one call of [get_weather_data]:
    how far the [async with] blocks get and what comes out of them. *)
Inductive network : Type :=
| RequestFails (e : exn)
    (** [e] is raised while the session, the timeout and [session.get]
        are entered: no response is obtained *)
| BodyFails (e : exn)
    (** a response is obtained; [await response.text()] or [json.loads]
        raises [e] *)
| ExitFails (doc : value) (e : exn)
    (** the body is read and parsed to [doc]; leaving the [async with]
        blocks raises [e] *)
| Loaded (doc : value)
    (** the body is read and parsed to [doc] and the blocks are left
        normally *).

(** Entering the three [async with] blocks. *)
Definition session_get (net : network) : M unit :=
  match net with
  | RequestFails e => raise e
  | _ => ret tt
  end.

(** [json.loads(await response.text())] *)
Definition response_json (net : network) : M value :=
  match net with
  | RequestFails e | BodyFails e => raise e
  | ExitFails doc _ | Loaded doc => ret doc
  end.

(** Leaving the three [async with] blocks. *)
Definition session_close (net : network) : M unit :=
  match net with
  | ExitFails _ e => raise e
  | _ => ret tt
  end.

(** The body of the [try] statement. *)
Definition load (net : network) : M unit :=
  session_get net ;;
  s <- get_self ;;
  set_fallback_weather_data (weather_data s) ;;
  doc <- response_json net ;;
  set_weather_data doc ;;
  session_close net.

(** The two [except] clauses, tried in source order. *)
Definition handler (e : exn) : M unit :=
  if is_cancelled e then raise e
  else
    logging_critical "loading weather data fails: %s" e ;;
    s <- get_self ;;
    set_weather_data (fallback_weather_data s).

(** [self.weather_data['current_observation'][field]] *)
Definition observation (field : string) : M value :=
  s <- get_self ;;
  obs <- lift (getitem (weather_data s) "current_observation") ;;
  lift (getitem obs field).

(** The three assignments that follow the [try] statement. *)
Definition project : M unit :=
  t <- observation "temp_f" ;;
  setattr "temperature" t ;;
  p <- observation "pressure_in" ;;
  setattr "barometric_pressure" p ;;
  w <- observation "wind_mph" ;;
  setattr "wind_speed" w.

(** [WeatherStation.get_weather_data], against what the network does
    during the call. *)
Definition get_weather_data (net : network) : M unit :=
  try_except (load net) handler ;;
  project.

(** One poll cycle: the state a call leaves behind, whether it returns or
    raises. *)
Definition cycle (net : network) (w : world) : world :=
  snd (get_weather_data net w).

(** Repeated calls, one per element of [nets]. *)
Definition run (nets : list network) (w : world) : world :=
  fold_left (fun w net => cycle net w) nets w.

(** ** What an observer reads *)

(** The value of the property registered under name [n]. *)
Definition exposed (n : string) (w : world) : option value :=
  prop_value <$> properties (self w) !! n.

(** Unit and description of the property registered under name [n]. *)
Definition metadata (n : string) (w : world) : option (string * string) :=
  (fun p => (prop_units p, prop_description p)) <$> properties (self w) !! n.

(** The values of temperature, barometric pressure and wind speed. *)
Definition readings (w : world) : option value * option value * option value :=
  (exposed "temperature" w, exposed "barometric_pressure" w, exposed "wind_speed" w).

(** A document with the three observation fields [t], [p] and [w]. *)
Definition snapshot (t p w : value) : value :=
  VDict {[ "current_observation" :=
             VDict (<["temp_f" := t]>
                      (<["pressure_in" := p]> {[ "wind_mph" := w ]})) ]}.

(** [doc['current_observation'][field]], as an expression. *)
Definition lookup_observation (doc : value) (field : string) : result value :=
  match getitem doc "current_observation" with
  | Ok obs => getitem obs field
  | Raise e => Raise e
  end.

(** [doc] carries the readings [t], [p] and [w] under the expected keys. *)
Definition has_readings (doc t p w : value) : Prop :=
  lookup_observation doc "temp_f" = Ok t /\
  lookup_observation doc "pressure_in" = Ok p /\
  lookup_observation doc "wind_mph" = Ok w.

(** The three declared properties are registered on the instance. *)
Definition registered (s : WeatherStation) : Prop :=
  forall d, In d declarations -> is_Some (properties s !! name d).

(** The exception a call runs into while loading, if any. *)
Definition failure (net : network) : option exn :=
  match net with
  | RequestFails e | BodyFails e | ExitFails _ e => Some e
  | Loaded _ => None
  end.

(** The load is interrupted by a cooperative cancellation. *)
Definition cancelled (net : network) : bool :=
  match failure net with
  | Some e => is_cancelled e
  | None => false
  end.

(** The load fails with anything but a cancellation. *)
Definition fails (net : network) : bool :=
  match failure net with
  | Some e => negb (is_cancelled e)
  | None => false
  end.

(** The request got as far as a response, so line 80 is reached. *)
Definition response_obtained (net : network) : bool :=
  match net with
  | RequestFails _ => false
  | _ => true
  end.

(** The places where the load can be interrupted. *)
Inductive point : Type :=
| AtRequest
| AtBody
| AtExit (doc : value).

Definition fails_at (p : point) (e : exn) : network :=
  match p with
  | AtRequest => RequestFails e
  | AtBody => BodyFails e
  | AtExit doc => ExitFails doc e
  end.

(** The states after each call of a run, oldest first. *)
Fixpoint history (nets : list network) (w : world) : list world :=
  match nets with
  | [] => []
  | net :: rest => cycle net w :: history rest (cycle net w)
  end.

(** The world with the two snapshots rebound. *)
Definition rebind (fallback current : value) (w : world) : world :=
  {| self := {| fallback_weather_data := fallback;
                weather_data := current;
                properties := properties (self w);
                instance_dict := instance_dict (self w) |};
     log := log w |}.

(** The world with one more critical record. *)
Definition logged (e : exn) (w : world) : world :=
  {| self := self w;
     log := log w ++ [ {| levelname := CRITICAL;
                          msg := "loading weather data fails: %s";
                          cause := e |} ] |}.

(** The world with value [v] in the property registered as [n]. *)
Definition store (n : string) (v : value) (w : world) : world :=
  {| self := {| fallback_weather_data := fallback_weather_data (self w);
                weather_data := weather_data (self w);
                properties := alter (with_value v) n (properties (self w));
                instance_dict := instance_dict (self w) |};
     log := log w |}.

(** The world with [v] as the instance attribute [a]. *)
Definition store_attr (a : string) (v : value) (w : world) : world :=
  {| self := {| fallback_weather_data := fallback_weather_data (self w);
                weather_data := weather_data (self w);
                properties := properties (self w);
                instance_dict := <[ a := v ]> (instance_dict (self w)) |};
     log := log w |}.

(** What lines 87 to 89 come to on snapshot [doc] when every declared
    property is registered: the first lookup that fails, if any. *)
Definition projection_result (doc : value) : result unit :=
  match lookup_observation doc "temp_f" with
  | Raise e => Raise e
  | Ok _ =>
      match lookup_observation doc "pressure_in" with
      | Raise e => Raise e
      | Ok _ =>
          match lookup_observation doc "wind_mph" with
          | Raise e => Raise e
          | Ok _ => Ok tt
          end
      end
  end.

(** Sample documents. *)
Definition docA : value := snapshot (VNum 50) (VNum 29) (VNum 5).
Definition docB : value := snapshot (VNum 61) (VNum 28) (VNum 7).

(** A parsed document whose observation lacks pressure and wind. *)
Definition doc_temp_only : value :=
  VDict {[ "current_observation" := VDict {[ "temp_f" := VNum 50 ]} ]}.

(** The [try] statement of [get_weather_data] on its own. *)
Definition try_part (net : network) : M unit := try_except (load net) handler.

(** The state the [try] statement leaves behind. *)
Definition after_try (net : network) (w : world) : world :=
  let fb := fallback_weather_data (self w) in
  let wd := weather_data (self w) in
  match net with
  | Loaded doc => rebind wd doc w
  | RequestFails e =>
      if is_cancelled e then w else logged e (rebind fb fb w)
  | BodyFails e =>
      if is_cancelled e then rebind wd wd w else logged e (rebind wd wd w)
  | ExitFails doc e =>
      if is_cancelled e then rebind wd doc w else logged e (rebind wd wd w)
  end.

(** A statement [m] keeps a relation [R] between the state it starts in
    and the state it leaves, whether it returns or raises. *)
Definition keeps {A} (R : world -> world -> Prop) (m : M A) : Prop :=
  forall w, R w (snd (m w)).

(** The relation kept by the three assignments: the snapshots and the log
    stay, and so does the unit and description of every property. *)
Definition projection_frame (w w' : world) : Prop :=
  fallback_weather_data (self w') = fallback_weather_data (self w) /\
  weather_data (self w') = weather_data (self w) /\
  log w' = log w /\
  forall n, metadata n w' = metadata n w.

(** The relation kept by the [try] statement: no property and no instance
    attribute is touched. *)
Definition load_frame (w w' : world) : Prop :=
  properties (self w') = properties (self w) /\
  instance_dict (self w') = instance_dict (self w).

(** A statement that neither reads nor writes the log: what it returns and
    the instance it leaves are decided by the instance it starts from. *)
Definition on_self {A} (m : M A) : Prop :=
  exists f : WeatherStation -> result A * WeatherStation,
    forall w, m w = (fst (f (self w)), {| self := snd (f (self w)); log := log w |}).

(** The station goes on showing the readings [t], [p] and [v] of an accepted
    document [doc]: temperature and wind speed are exposed, the pressure
    sits in the instance attribute of line 88 while the pressure property
    still has its initial value, and each snapshot slot holds [doc] or
    the empty mapping of the constructor. *)
Definition holding (doc t p v : value) (w : world) : Prop :=
  registered (self w) /\
  exposed "temperature" w = Some t /\
  exposed "wind_speed" w = Some v /\
  instance_dict (self w) !! "barometric_pressure" = Some p /\
  exposed "barometric_pressure" w = Some (VNum 30) /\
  (weather_data (self w) = doc \/ weather_data (self w) = VDict ∅) /\
  (fallback_weather_data (self w) = doc \/ fallback_weather_data (self w) = VDict ∅).

(** The string contains the path separator. *)
Fixpoint has_slash (s : string) : bool :=
  match s with
  | EmptyString => false
  | String c rest => Ascii.eqb c "/" || has_slash rest
  end.

(** The records one call adds to the log. *)
Definition critical_records (net : network) : list log_record :=
  match failure net with
  | Some e =>
      if is_cancelled e then []
      else [ {| levelname := CRITICAL;
                msg := "loading weather data fails: %s";
                cause := e |} ]
  | None => []
  end.


(** ** Basic facts about statements *)

Section Statements.

Context {A B : Type}.

Lemma bind_ok (m : M A) (k : A -> M B) w a w' :
  m w = (Ok a, w') -> bind m k w = k a w'.
Proof. intros H. unfold bind. now rewrite H. Qed.

Lemma bind_raise (m : M A) (k : A -> M B) w e w' :
  m w = (Raise e, w') -> bind m k w = (Raise e, w').
Proof. intros H. unfold bind. now rewrite H. Qed.

End Statements.

Lemma observation_run field w :
  observation field w = (lookup_observation (weather_data (self w)) field, w).
Proof.
  unfold observation, lookup_observation, bind, lift, get_self.
  destruct (getitem (weather_data (self w)) "current_observation"); reflexivity.
Qed.

Lemma descriptor_temperature : descriptor "temperature" = Some "temperature".
Proof. reflexivity. Qed.

Lemma descriptor_wind_speed : descriptor "wind_speed" = Some "wind_speed".
Proof. reflexivity. Qed.

(** The name assigned on line 88 is not the name the pressure property is
    declared under, so no descriptor takes the assignment. *)
Lemma descriptor_barometric_pressure : descriptor "barometric_pressure" = None.
Proof. reflexivity. Qed.

Lemma descriptor_barometic_pressure :
  descriptor "barometic_pressure" = Some "barometric_pressure".
Proof. reflexivity. Qed.

Lemma registered_init : registered init.
Proof.
  intros d Hd. simpl in Hd.
  destruct Hd as [<- | [<- | [<- | []]]]; vm_compute; eauto.
Qed.

(** ** The [try] statement, case by case *)

Lemma get_weather_data_unfold net w :
  get_weather_data net w =
    match try_part net w with
    | (Ok _, w') => project w'
    | (Raise e, w') => (Raise e, w')
    end.
Proof. reflexivity. Qed.

Lemma try_loaded doc w :
  try_part (Loaded doc) w = (Ok tt, rebind (weather_data (self w)) doc w).
Proof. reflexivity. Qed.

Lemma try_request_fails e w :
  is_cancelled e = false ->
  try_part (RequestFails e) w =
    (Ok tt, logged e (rebind (fallback_weather_data (self w))
                             (fallback_weather_data (self w)) w)).
Proof.
  intros He. unfold try_part, try_except, load, handler; cbn.
  rewrite He. reflexivity.
Qed.

Lemma try_body_fails e w :
  is_cancelled e = false ->
  try_part (BodyFails e) w =
    (Ok tt, logged e (rebind (weather_data (self w)) (weather_data (self w)) w)).
Proof.
  intros He. unfold try_part, try_except, load, handler; cbn.
  rewrite He. reflexivity.
Qed.

Lemma try_exit_fails doc e w :
  is_cancelled e = false ->
  try_part (ExitFails doc e) w =
    (Ok tt, logged e (rebind (weather_data (self w)) (weather_data (self w)) w)).
Proof.
  intros He. unfold try_part, try_except, load, handler; cbn.
  rewrite He. reflexivity.
Qed.

Lemma try_cancelled net w :
  cancelled net = true ->
  try_part net w =
    (Raise CancelledError,
     match net with
     | RequestFails _ | Loaded _ => w
     | BodyFails _ => rebind (weather_data (self w)) (weather_data (self w)) w
     | ExitFails doc _ => rebind (weather_data (self w)) doc w
     end).
Proof.
  destruct net as [e | e | doc e | doc]; cbn; try discriminate;
    destruct e; cbn; try discriminate; reflexivity.
Qed.

(** ** The three assignments *)

Lemma set_property_some n v w :
  is_Some (properties (self w) !! n) ->
  set_property n v w = (Ok tt, store n v w).
Proof.
  intros [p Hp]. unfold set_property, bind, get_self; cbn.
  rewrite Hp. reflexivity.
Qed.

Lemma set_property_none n v w :
  properties (self w) !! n = None ->
  set_property n v w = (Raise (KeyError n), w).
Proof.
  intros Hp. unfold set_property, bind, get_self; cbn.
  rewrite Hp. reflexivity.
Qed.

Lemma setattr_barometric_pressure v w :
  setattr "barometric_pressure" v w = (Ok tt, store_attr "barometric_pressure" v w).
Proof. reflexivity. Qed.

Lemma registered_lookup s n :
  registered s -> In n (List.map name declarations) -> is_Some (properties s !! n).
Proof.
  intros Hr Hn. apply in_map_iff in Hn as [d [<- Hd]]. now apply Hr.
Qed.

Lemma exposed_store_eq n v w :
  is_Some (properties (self w) !! n) -> exposed n (store n v w) = Some v.
Proof.
  intros [p Hp]. unfold exposed; cbn.
  rewrite lookup_alter_eq, Hp. reflexivity.
Qed.

Lemma exposed_store_ne n m v w : n <> m -> exposed m (store n v w) = exposed m w.
Proof.
  intros Hne. unfold exposed; cbn. now rewrite lookup_alter_ne.
Qed.

Lemma metadata_store n m v w : metadata m (store n v w) = metadata m w.
Proof.
  unfold metadata; cbn. rewrite lookup_alter.
  destruct (decide (n = m)) as [-> | _]; [| reflexivity].
  destruct (properties (self w) !! m); reflexivity.
Qed.

(** The assignments on a snapshot that carries the three readings. *)
Lemma project_ok w t p v :
  registered (self w) ->
  has_readings (weather_data (self w)) t p v ->
  project w =
    (Ok tt, store "wind_speed" v
              (store_attr "barometric_pressure" p (store "temperature" t w))).
Proof.
  intros Hr (Ht & Hp & Hv). unfold project.
  rewrite (bind_ok _ _ w t w) by (rewrite observation_run; now rewrite Ht).
  unfold setattr at 1. rewrite descriptor_temperature.
  rewrite (bind_ok _ _ w tt (store "temperature" t w)).
  2:{ apply set_property_some, registered_lookup; [exact Hr | cbn; tauto]. }
  rewrite (bind_ok _ _ _ p (store "temperature" t w))
    by (rewrite observation_run; cbn; now rewrite Hp).
  rewrite (bind_ok _ _ _ tt (store_attr "barometric_pressure" p (store "temperature" t w)))
    by apply setattr_barometric_pressure.
  rewrite (bind_ok _ _ _ v (store_attr "barometric_pressure" p (store "temperature" t w)))
    by (rewrite observation_run; cbn; now rewrite Hv).
  unfold setattr. rewrite descriptor_wind_speed.
  apply set_property_some. cbn.
  rewrite lookup_alter_ne by discriminate.
  apply registered_lookup; [exact Hr | cbn; tauto].
Qed.

(** The first lookup fails: nothing is assigned. *)
Lemma project_no_temperature w e :
  lookup_observation (weather_data (self w)) "temp_f" = Raise e ->
  project w = (Raise e, w).
Proof.
  intros Ht. unfold project.
  apply bind_raise. rewrite observation_run. now rewrite Ht.
Qed.

(** The second lookup fails: the temperature is already assigned. *)
Lemma project_no_pressure w t e :
  registered (self w) ->
  lookup_observation (weather_data (self w)) "temp_f" = Ok t ->
  lookup_observation (weather_data (self w)) "pressure_in" = Raise e ->
  project w = (Raise e, store "temperature" t w).
Proof.
  intros Hr Ht Hp. unfold project.
  rewrite (bind_ok _ _ w t w) by (rewrite observation_run; now rewrite Ht).
  unfold setattr at 1. rewrite descriptor_temperature.
  rewrite (bind_ok _ _ w tt (store "temperature" t w)).
  2:{ apply set_property_some, registered_lookup; [exact Hr | cbn; tauto]. }
  apply bind_raise. rewrite observation_run; cbn. now rewrite Hp.
Qed.

(** The third lookup fails: temperature and pressure are assigned. *)
Lemma project_no_wind w t p e :
  registered (self w) ->
  lookup_observation (weather_data (self w)) "temp_f" = Ok t ->
  lookup_observation (weather_data (self w)) "pressure_in" = Ok p ->
  lookup_observation (weather_data (self w)) "wind_mph" = Raise e ->
  project w =
    (Raise e, store_attr "barometric_pressure" p (store "temperature" t w)).
Proof.
  intros Hr Ht Hp Hv. unfold project.
  rewrite (bind_ok _ _ w t w) by (rewrite observation_run; now rewrite Ht).
  unfold setattr at 1. rewrite descriptor_temperature.
  rewrite (bind_ok _ _ w tt (store "temperature" t w)).
  2:{ apply set_property_some, registered_lookup; [exact Hr | cbn; tauto]. }
  rewrite (bind_ok _ _ _ p (store "temperature" t w))
    by (rewrite observation_run; cbn; now rewrite Hp).
  rewrite (bind_ok _ _ _ tt (store_attr "barometric_pressure" p (store "temperature" t w)))
    by apply setattr_barometric_pressure.
  apply bind_raise. rewrite observation_run; cbn. now rewrite Hv.
Qed.

(** ** Frame reasoning *)

Section Keeps.

Variable R : world -> world -> Prop.
Hypothesis R_refl : forall w, R w w.
Hypothesis R_trans : forall w1 w2 w3, R w1 w2 -> R w2 w3 -> R w1 w3.

Lemma keeps_lift {A} (r : result A) : keeps R (lift r).
Proof. intros w. apply R_refl. Qed.

Lemma keeps_get_self : keeps R get_self.
Proof. intros w. apply R_refl. Qed.

Lemma keeps_bind {A B} (m : M A) (k : A -> M B) :
  keeps R m -> (forall a, keeps R (k a)) -> keeps R (bind m k).
Proof.
  intros Hm Hk w. unfold bind.
  specialize (Hm w). destruct (m w) as [[a | e] w1]; cbn in *.
  - eapply R_trans; [exact Hm | apply Hk].
  - exact Hm.
Qed.

Lemma keeps_observation field : keeps R (observation field).
Proof.
  unfold observation.
  apply keeps_bind; [apply keeps_get_self | intros s].
  apply keeps_bind; [apply keeps_lift | intros obs; apply keeps_lift].
Qed.

(** The projection keeps whatever every assignment keeps. *)
Lemma keeps_project :
  (forall attr v, keeps R (setattr attr v)) -> keeps R project.
Proof.
  intros Hset. unfold project.
  repeat (apply keeps_bind; [first [apply keeps_observation | apply Hset] | intros ?]).
  apply Hset.
Qed.

End Keeps.

Lemma projection_frame_refl w : projection_frame w w.
Proof. repeat split. Qed.

Lemma projection_frame_trans w1 w2 w3 :
  projection_frame w1 w2 -> projection_frame w2 w3 -> projection_frame w1 w3.
Proof.
  intros (Hf & Hw & Hl & Hm) (Hf' & Hw' & Hl' & Hm').
  unfold projection_frame.
  split; [congruence | split; [congruence | split; [congruence |]]].
  intros n. now rewrite Hm', Hm.
Qed.

Lemma load_frame_refl w : load_frame w w.
Proof. split; reflexivity. Qed.

Lemma load_frame_trans w1 w2 w3 :
  load_frame w1 w2 -> load_frame w2 w3 -> load_frame w1 w3.
Proof. intros [Hp Hi] [Hp' Hi']. split; congruence. Qed.

Lemma setattr_projection_frame attr v : keeps projection_frame (setattr attr v).
Proof.
  intros w. unfold setattr.
  destruct (descriptor attr) as [n |].
  - destruct (properties (self w) !! n) as [p |] eqn:Hp.
    + rewrite set_property_some by eauto. cbn.
      repeat split. intros m. apply metadata_store.
    + rewrite set_property_none by assumption. apply projection_frame_refl.
  - cbn. repeat split.
Qed.

Lemma project_frame : keeps projection_frame project.
Proof.
  apply keeps_project.
  - apply projection_frame_refl.
  - apply projection_frame_trans.
  - apply setattr_projection_frame.
Qed.

Lemma try_part_frame net : keeps load_frame (try_part net).
Proof.
  intros w. destruct (cancelled net) eqn:Hc.
  - rewrite try_cancelled by assumption.
    destruct net; split; reflexivity.
  - destruct net as [e | e | doc e | doc]; cbn in Hc.
    + rewrite try_request_fails by assumption. split; reflexivity.
    + rewrite try_body_fails by assumption. split; reflexivity.
    + rewrite try_exit_fails by assumption. split; reflexivity.
    + rewrite try_loaded. split; reflexivity.
Qed.

(** ** One call of [get_weather_data] *)

Lemma try_part_run net w :
  try_part net w =
    (if cancelled net then Raise CancelledError else Ok tt, after_try net w).
Proof.
  destruct net as [e | e | doc e | doc]; try reflexivity;
    destruct e; reflexivity.
Qed.

Lemma get_weather_data_run net w :
  get_weather_data net w =
    if cancelled net then (Raise CancelledError, after_try net w)
    else project (after_try net w).
Proof.
  rewrite get_weather_data_unfold, try_part_run.
  destruct (cancelled net); reflexivity.
Qed.

Lemma after_try_frame net w : load_frame w (after_try net w).
Proof.
  pose proof (try_part_frame net w) as H.
  now rewrite try_part_run in H.
Qed.

Lemma registered_after_try net w :
  registered (self w) -> registered (self (after_try net w)).
Proof.
  intros Hr d Hd. destruct (after_try_frame net w) as [-> _]. now apply Hr.
Qed.

Lemma after_try_fallback net w :
  fallback_weather_data (self (after_try net w)) =
    if response_obtained net then weather_data (self w)
    else fallback_weather_data (self w).
Proof.
  destruct net as [e | e | doc e | doc]; cbn; try reflexivity;
    destruct (is_cancelled e); reflexivity.
Qed.

(** The result of the assignments is decided by the snapshot alone. *)
Lemma project_result w :
  registered (self w) ->
  fst (project w) = projection_result (weather_data (self w)).
Proof.
  intros Hr. unfold projection_result.
  destruct (lookup_observation (weather_data (self w)) "temp_f") as [t | e] eqn:Ht.
  2:{ now rewrite (project_no_temperature w e). }
  destruct (lookup_observation (weather_data (self w)) "pressure_in") as [p | e] eqn:Hp.
  2:{ now rewrite (project_no_pressure w t e). }
  destruct (lookup_observation (weather_data (self w)) "wind_mph") as [v | e] eqn:Hv.
  2:{ now rewrite (project_no_wind w t p e). }
  now rewrite (project_ok w t p v).
Qed.

Lemma cycle_run net w :
  cycle net w =
    if cancelled net then after_try net w else snd (project (after_try net w)).
Proof.
  unfold cycle. rewrite get_weather_data_run.
  destruct (cancelled net); reflexivity.
Qed.

Lemma cycle_fallback net w :
  fallback_weather_data (self (cycle net w)) =
    if response_obtained net then weather_data (self w)
    else fallback_weather_data (self w).
Proof.
  rewrite cycle_run. destruct (cancelled net).
  - apply after_try_fallback.
  - destruct (project_frame (after_try net w)) as (-> & _).
    apply after_try_fallback.
Qed.

Lemma cycle_weather_data net w :
  weather_data (self (cycle net w)) = weather_data (self (after_try net w)).
Proof.
  rewrite cycle_run. destruct (cancelled net); [reflexivity |].
  now destruct (project_frame (after_try net w)) as (_ & -> & _).
Qed.

Lemma cycle_metadata net w n : metadata n (cycle net w) = metadata n w.
Proof.
  assert (Hload : metadata n (after_try net w) = metadata n w).
  { unfold metadata. now destruct (after_try_frame net w) as [-> _]. }
  rewrite cycle_run. destruct (cancelled net); [exact Hload |].
  destruct (project_frame (after_try net w)) as (_ & _ & _ & Hm).
  now rewrite Hm.
Qed.

Lemma registered_project w : registered (self w) -> registered (self (snd (project w))).
Proof.
  intros Hr d Hd.
  destruct (project_frame w) as (_ & _ & _ & Hm).
  specialize (Hm (name d)). unfold metadata in Hm.
  destruct (Hr d Hd) as [p Hp]. rewrite Hp in Hm.
  destruct (properties (self (snd (project w))) !! name d); [eauto | discriminate].
Qed.

Lemma registered_cycle net w : registered (self w) -> registered (self (cycle net w)).
Proof.
  intros Hr. rewrite cycle_run. destruct (cancelled net).
  - now apply registered_after_try.
  - now apply registered_project, registered_after_try.
Qed.

(** ** The resolver *)

(** C9: [create_url] always returns, and what it returns is the fixed
    address template with the API key, then the state code, then the city
    name filled in, in that order.  It is a function of these three
    strings alone: whatever else the configuration holds and whatever the
    other two arguments are, equal strings give an equal target. *)
Theorem create_url_template :
  forall (NS ARGS : Type) (cfg : config) (ns : NS) (args : ARGS),
    create_url cfg ns args =
      Some ("http://api.wunderground.com/api/" ++ weather_underground_api_key cfg
            ++ "/conditions/q/" ++ state_code cfg
            ++ "/" ++ city_name cfg ++ ".json")%string
    /\ forall (NS' ARGS' : Type) (cfg' : config) (ns' : NS') (args' : ARGS'),
         weather_underground_api_key cfg' = weather_underground_api_key cfg ->
         state_code cfg' = state_code cfg ->
         city_name cfg' = city_name cfg ->
         create_url cfg' ns' args' = create_url cfg ns args.
Proof.
  intros NS ARGS cfg ns args. split.
  - unfold create_url, url_template. cbn. reflexivity.
  - intros NS' ARGS' cfg' ns' args' Hk Hs Hc.
    unfold create_url. now rewrite Hk, Hs, Hc.
Qed.

Lemma create_url_template_witness :
  create_url default_config tt tt =
    Some "http://api.wunderground.com/api/not a real key/conditions/q/OR/Corvallis.json"
  /\ create_url {| weather_underground_api_key := "not a real key";
                   state_code := "OR";
                   city_name := "Corvallis";
                   seconds_for_timeout := 3 |} 0%nat true
     = create_url default_config tt tt.
Proof.
  destruct (create_url_template unit unit default_config tt tt) as [Hurl Hdet].
  split.
  - exact Hurl.
  - apply Hdet; reflexivity.
Defined.

(** ** Metadata *)

(** C10: a call of [get_weather_data] leaves the unit and the description
    of every property as they were, and so does every sequence of calls;
    only values can change. *)
Theorem metadata_stable :
  forall (n : string) (w : world),
    (forall net, metadata n (cycle net w) = metadata n w) /\
    (forall nets, metadata n (run nets w) = metadata n w).
Proof.
  intros n w. split.
  - intros net. apply cycle_metadata.
  - intros nets. revert w. unfold run.
    induction nets as [| net nets IH]; intros w; cbn.
    + reflexivity.
    + rewrite IH. apply cycle_metadata.
Qed.

(** The metadata a fresh station starts with are the declared ones. *)
Example metadata_startup :
  List.map (fun d => metadata (name d) startup) declarations =
  List.map (fun d => Some (units d, description d)) declarations.
Proof. vm_compute. reflexivity. Qed.

(** ** Rotation *)

(** C2, as the code has it: the only value the fallback slot ever takes is
    the one the current slot held when the call began, and it takes it once
    a response has been obtained, before the body is read and parsed.  A
    call whose request fails before that leaves the fallback slot as it
    was. *)
Theorem rotation_after_response :
  forall (net : network) (w : world),
    fallback_weather_data (self (cycle net w)) =
      if response_obtained net then weather_data (self w)
      else fallback_weather_data (self w).
Proof. intros net w. apply cycle_fallback. Qed.

(** The two snapshots of a fresh station differ. *)
Lemma init_snapshots_differ : fallback_weather_data init <> weather_data init.
Proof.
  intros H. apply (f_equal (fun v => getitem v "current_observation")) in H.
  vm_compute in H. discriminate.
Qed.

(** C2, as stated, fails: a request that is refused before any response
    leaves the fallback slot with its old value, not with the value the
    current slot held when the call began. *)
Lemma rotation_before_attempt_fails :
  let w := cycle (RequestFails (ClientError "connection refused")) startup in
  fallback_weather_data (self w) = fallback_weather_data (self startup) /\
  fallback_weather_data (self w) <> weather_data (self startup).
Proof.
  cbv zeta. rewrite cycle_fallback. cbn [response_obtained].
  split; [reflexivity | apply init_snapshots_differ].
Qed.

(** ** Cancellation *)

(** C6, as the code has it: a cancellation observed at any point of the
    load is raised to the caller as it is; no property and no instance
    attribute is assigned, nothing is logged and the current slot is not
    rebound to the fallback (it keeps its value, or holds the freshly
    parsed document when the cancellation arrives while the blocks are
    left).  The fallback slot is untouched when the cancellation arrives
    before a response is obtained; once a response has been obtained the
    rotation has already taken place. *)
Theorem cancellation_propagates :
  forall (net : network) (w : world),
    cancelled net = true ->
    fst (get_weather_data net w) = Raise CancelledError /\
    properties (self (cycle net w)) = properties (self w) /\
    instance_dict (self (cycle net w)) = instance_dict (self w) /\
    log (cycle net w) = log w /\
    weather_data (self (cycle net w)) =
      match net with
      | ExitFails doc _ => doc
      | _ => weather_data (self w)
      end /\
    fallback_weather_data (self (cycle net w)) =
      if response_obtained net then weather_data (self w)
      else fallback_weather_data (self w).
Proof.
  intros net w Hc.
  rewrite cycle_fallback, cycle_run, get_weather_data_run, Hc.
  destruct (after_try_frame net w) as [Hp Hi].
  repeat split; try assumption;
    destruct net as [e | e | doc e | doc]; cbn in Hc |- *;
    try discriminate; rewrite Hc; reflexivity.
Qed.

Lemma cancellation_propagates_witness :
  fst (get_weather_data (BodyFails CancelledError) startup) = Raise CancelledError /\
  readings (cycle (BodyFails CancelledError) startup) = readings startup /\
  fallback_weather_data (self (cycle (BodyFails CancelledError) startup)) = VDict ∅.
Proof.
  destruct (cancellation_propagates (BodyFails CancelledError) startup eq_refl)
    as (Hr & Hp & _ & _ & _ & Hf).
  split; [exact Hr | split].
  - unfold readings, exposed. rewrite Hp. reflexivity.
  - exact Hf.
Defined.

(** C6, as stated, fails: a cancellation that arrives while the body is
    read finds the fallback slot already rotated. *)
Lemma cancellation_after_rotation :
  cancelled (BodyFails CancelledError) = true /\
  fallback_weather_data (self (cycle (BodyFails CancelledError) startup))
    <> fallback_weather_data (self startup).
Proof.
  split; [reflexivity |].
  rewrite cycle_fallback. cbn [response_obtained].
  intros H. symmetry in H. revert H. apply init_snapshots_differ.
Qed.

(** ** Ordinary failures *)

Section OnSelf.

Lemma on_self_raise {A} e : on_self (@raise A e).
Proof. exists (fun s => (Raise e, s)). now intros []. Qed.

Lemma on_self_lift {A} (r : result A) : on_self (lift r).
Proof. exists (fun s => (r, s)). now intros []. Qed.

Lemma on_self_get_self : on_self get_self.
Proof. exists (fun s => (Ok s, s)). now intros []. Qed.

Lemma on_self_put_self s : on_self (put_self s).
Proof. exists (fun _ => (Ok tt, s)). now intros []. Qed.

Lemma on_self_bind {A B} (m : M A) (k : A -> M B) :
  on_self m -> (forall a, on_self (k a)) -> on_self (bind m k).
Proof.
  intros [f Hf] Hk.
  exists (fun s =>
            match f s with
            | (Ok a, s') =>
                (fst (k a {| self := s'; log := [] |}),
                 self (snd (k a {| self := s'; log := [] |})))
            | (Raise e, s') => (Raise e, s')
            end).
  intros w. unfold bind. rewrite Hf.
  destruct (f (self w)) as [[a | e] s']; cbn; [| reflexivity].
  destruct (Hk a) as [g Hg]. now rewrite !Hg.
Qed.

Lemma on_self_setattr attr v : on_self (setattr attr v).
Proof.
  unfold setattr, set_property.
  destruct (descriptor attr) as [n |].
  - apply on_self_bind; [apply on_self_get_self | intros s].
    destruct (properties s !! n); [apply on_self_put_self | apply on_self_raise].
  - apply on_self_bind; [apply on_self_get_self | intros s; apply on_self_put_self].
Qed.

Lemma on_self_observation field : on_self (observation field).
Proof.
  unfold observation.
  apply on_self_bind; [apply on_self_get_self | intros s].
  apply on_self_bind; [apply on_self_lift | intros obs; apply on_self_lift].
Qed.

Lemma on_self_project : on_self project.
Proof.
  unfold project.
  repeat (apply on_self_bind;
          [first [apply on_self_observation | apply on_self_setattr] | intros ?]).
  apply on_self_setattr.
Qed.

End OnSelf.

(** The assignments do not depend on what has been logged. *)
Lemma project_same_self w1 w2 :
  self w1 = self w2 ->
  fst (project w1) = fst (project w2) /\
  self (snd (project w1)) = self (snd (project w2)).
Proof.
  intros H. destruct on_self_project as [f Hf].
  rewrite (Hf w1), (Hf w2), H. split; reflexivity.
Qed.

(** Two ordinary exceptions raised at the same point of the load lead to
    the same result and the same instance. *)
Lemma ordinary_failures_agree p e1 e2 w :
  is_cancelled e1 = false ->
  is_cancelled e2 = false ->
  fst (get_weather_data (fails_at p e1) w) = fst (get_weather_data (fails_at p e2) w) /\
  self (cycle (fails_at p e1) w) = self (cycle (fails_at p e2) w).
Proof.
  intros H1 H2. unfold cycle. rewrite !get_weather_data_run.
  assert (Hc : forall e, cancelled (fails_at p e) = is_cancelled e)
    by (intros e; destruct p; reflexivity).
  rewrite !Hc, H1, H2.
  apply project_same_self.
  destruct p; cbn; rewrite H1, H2; reflexivity.
Qed.

(** C7: a call that fails because [seconds_for_timeout] ran out and a call
    that fails with a transport error at the same point, started in the
    same state, return or raise alike and leave the same instance, hence
    the same three property values. *)
Theorem timeout_like_transport_error :
  forall (p : point) (msg : string) (w : world),
    fst (get_weather_data (fails_at p TimeoutError) w)
      = fst (get_weather_data (fails_at p (ClientError msg)) w) /\
    self (cycle (fails_at p TimeoutError) w)
      = self (cycle (fails_at p (ClientError msg)) w) /\
    readings (cycle (fails_at p TimeoutError) w)
      = readings (cycle (fails_at p (ClientError msg)) w).
Proof.
  intros p msg w.
  destruct (ordinary_failures_agree p TimeoutError (ClientError msg) w eq_refl eq_refl)
    as [Hr Hs].
  split; [exact Hr | split; [exact Hs |]].
  unfold readings, exposed. now rewrite Hs.
Qed.

(** ** What a call can raise *)

Lemma after_try_weather_data net w :
  weather_data (self (after_try net w)) =
    match net with
    | Loaded doc => doc
    | RequestFails e =>
        if is_cancelled e then weather_data (self w)
        else fallback_weather_data (self w)
    | BodyFails _ => weather_data (self w)
    | ExitFails doc e => if is_cancelled e then doc else weather_data (self w)
    end.
Proof.
  destruct net as [e | e | doc e | doc]; cbn; try reflexivity;
    destruct (is_cancelled e); reflexivity.
Qed.

Lemma projection_result_readings doc t p v :
  has_readings doc t p v -> projection_result doc = Ok tt.
Proof.
  intros (Ht & Hp & Hv). unfold projection_result. now rewrite Ht, Hp, Hv.
Qed.

(** C3, as the code has it: an ordinary exception raised by the load is
    caught, and the current slot is then bound to the fresh document, to
    the value it had, or to the fallback.  The three lookups that follow
    run outside the [try] statement: the call returns normally when the
    bound snapshot carries the three observation fields, and raises the
    error of the first failing lookup to the caller when it does not.
    Apart from such a lookup error only a cancellation is raised. *)
Theorem raises_cancellation_or_lookup_error :
  forall (net : network) (w : world),
    registered (self w) ->
    fst (get_weather_data net w) =
      (if cancelled net then Raise CancelledError
       else projection_result (weather_data (self (cycle net w)))) /\
    weather_data (self (cycle net w)) =
      match net with
      | Loaded doc => doc
      | RequestFails e =>
          if is_cancelled e then weather_data (self w)
          else fallback_weather_data (self w)
      | BodyFails _ => weather_data (self w)
      | ExitFails doc e => if is_cancelled e then doc else weather_data (self w)
      end /\
    (forall t p v,
        cancelled net = false ->
        has_readings (weather_data (self (cycle net w))) t p v ->
        fst (get_weather_data net w) = Ok tt).
Proof.
  intros net w Hr.
  assert (Hres : fst (get_weather_data net w) =
                 if cancelled net then Raise CancelledError
                 else projection_result (weather_data (self (cycle net w)))).
  { rewrite cycle_weather_data, get_weather_data_run.
    destruct (cancelled net); [reflexivity |].
    now apply project_result, registered_after_try. }
  split; [exact Hres | split].
  - rewrite cycle_weather_data. apply after_try_weather_data.
  - intros t p v Hc Hd. rewrite Hres, Hc.
    now apply projection_result_readings with t p v.
Qed.

Lemma has_readings_snapshot t p v : has_readings (snapshot t p v) t p v.
Proof. repeat split. Qed.

Lemma raises_cancellation_or_lookup_error_witness :
  fst (get_weather_data (RequestFails TimeoutError) startup) = Ok tt.
Proof.
  destruct (raises_cancellation_or_lookup_error
              (RequestFails TimeoutError) startup registered_init)
    as (_ & Hwd & Hok).
  apply (Hok (VNum 0) (VNum 0) (VNum 0)); [reflexivity |].
  rewrite Hwd. cbn. repeat split.
Defined.

(** C3, as stated, fails: a document that was fetched and parsed but has
    no observation makes the call raise [KeyError] to its caller. *)
Lemma missing_observation_raises :
  fst (get_weather_data (Loaded (VDict ∅)) startup)
    = Raise (KeyError "current_observation").
Proof. vm_compute. reflexivity. Qed.

(** ** The first call fails *)

(** C4, as the code has it: when the very first call fails before a
    response is obtained, the current slot is bound to the zero-filled
    snapshot built by [__init__] and temperature and wind speed take its
    values, 0 and 0; when it fails after a response was obtained, the
    three properties hold their declared initial values 0, 30 and 30. *)
Theorem first_call_fails :
  forall net : network,
    fails net = true ->
    if response_obtained net
    then readings (cycle net startup)
         = (Some (VNum 0), Some (VNum 30), Some (VNum 30))
    else exposed "temperature" (cycle net startup) = Some (VNum 0) /\
         exposed "wind_speed" (cycle net startup) = Some (VNum 0).
Proof.
  intros net Hf.
  destruct net as [e | e | doc e | doc]; cbn in Hf; try discriminate;
    destruct e; try discriminate; cbn [response_obtained];
    try split; vm_compute; reflexivity.
Qed.

Lemma first_call_fails_witness :
  exposed "temperature" (cycle (RequestFails TimeoutError) startup) = Some (VNum 0) /\
  exposed "wind_speed" (cycle (RequestFails TimeoutError) startup) = Some (VNum 0).
Proof. exact (first_call_fails (RequestFails TimeoutError) eq_refl). Defined.

(** C4, as stated, fails: after a first call that timed out before any
    response the wind speed is 0, not its declared initial value 30. *)
Lemma first_call_fails_not_defaults :
  fails (RequestFails TimeoutError) = true /\
  readings (cycle (RequestFails TimeoutError) startup)
    <> (Some (VNum 0), Some (VNum 30), Some (VNum 30)).
Proof.
  split; [reflexivity |].
  vm_compute. intros H. discriminate H.
Qed.

(** ** Documents that lack a field *)

(** C5, as the code has it: the lookups and assignments of lines 87 to 89
    run one after the other outside the [try] statement.  For a fetched
    and parsed document without [current_observation] or without its
    [temp_f] the call raises the lookup error to the caller, leaves the
    three property values as they were and logs nothing.  When [temp_f]
    is there and a later field is missing, the error is raised all the
    same and nothing is logged, the temperature has its new value and the
    wind speed its old one. *)
Theorem missing_field :
  forall (doc : value) (w : world),
    registered (self w) ->
    (forall e,
        lookup_observation doc "temp_f" = Raise e ->
        fst (get_weather_data (Loaded doc) w) = Raise e /\
        readings (cycle (Loaded doc) w) = readings w /\
        log (cycle (Loaded doc) w) = log w) /\
    (forall t e,
        lookup_observation doc "temp_f" = Ok t ->
        lookup_observation doc "pressure_in" = Raise e
        \/ lookup_observation doc "wind_mph" = Raise e ->
        (exists e', fst (get_weather_data (Loaded doc) w) = Raise e') /\
        exposed "temperature" (cycle (Loaded doc) w) = Some t /\
        exposed "wind_speed" (cycle (Loaded doc) w) = exposed "wind_speed" w /\
        log (cycle (Loaded doc) w) = log w).
Proof.
  intros doc w Hr.
  assert (Hr' : registered (self (rebind (weather_data (self w)) doc w)))
    by exact Hr.
  assert (Htemp : is_Some (properties (self w) !! "temperature"))
    by (apply registered_lookup; [exact Hr | cbn; tauto]).
  split.
  - intros e Ht. unfold cycle.
    rewrite get_weather_data_run. cbn [cancelled failure after_try].
    rewrite (project_no_temperature _ e) by exact Ht.
    repeat split.
  - intros t e Ht Hlater. unfold cycle.
    rewrite get_weather_data_run. cbn [cancelled failure after_try].
    destruct (lookup_observation doc "pressure_in") as [p | e1] eqn:Hp.
    + destruct Hlater as [Hp' | Hv]; [discriminate |].
      rewrite (project_no_wind _ t p e) by assumption.
      cbn [fst snd]. split; [eauto | split; [| split]].
      * unfold exposed; cbn. rewrite lookup_alter_eq.
        destruct Htemp as [q ->]. reflexivity.
      * unfold exposed; cbn. now rewrite lookup_alter_ne.
      * reflexivity.
    + rewrite (project_no_pressure _ t e1) by assumption.
      cbn [fst snd]. split; [eauto | split; [| split]].
      * unfold exposed; cbn. rewrite lookup_alter_eq.
        destruct Htemp as [q ->]. reflexivity.
      * unfold exposed; cbn. now rewrite lookup_alter_ne.
      * reflexivity.
Qed.

Lemma missing_field_witness :
  (exists e', fst (get_weather_data (Loaded doc_temp_only) startup) = Raise e') /\
  exposed "temperature" (cycle (Loaded doc_temp_only) startup) = Some (VNum 50) /\
  exposed "wind_speed" (cycle (Loaded doc_temp_only) startup)
    = exposed "wind_speed" startup /\
  log (cycle (Loaded doc_temp_only) startup) = log startup.
Proof.
  destruct (missing_field doc_temp_only startup registered_init) as [_ H].
  apply (H (VNum 50) (KeyError "pressure_in")).
  - reflexivity.
  - left. reflexivity.
Defined.

(** C5, as stated, fails: a parsed document that has the temperature but
    neither pressure nor wind changes the temperature, leaves the wind
    speed as it was, and no record is logged. *)
Lemma partial_update :
  lookup_observation doc_temp_only "wind_mph" = Raise (KeyError "wind_mph") /\
  exposed "temperature" (cycle (Loaded doc_temp_only) startup)
    <> exposed "temperature" startup /\
  exposed "wind_speed" (cycle (Loaded doc_temp_only) startup)
    = exposed "wind_speed" startup /\
  log (cycle (Loaded doc_temp_only) startup) = [].
Proof.
  vm_compute. repeat split. intros H. discriminate H.
Qed.

(** ** The empty mapping of the constructor *)

Lemma run_cons net nets w : run (net :: nets) w = run nets (cycle net w).
Proof. reflexivity. Qed.

(** Calls that get no response leave the fallback slot alone. *)
Lemma run_request_fails_fallback es w :
  fallback_weather_data (self (run (List.map RequestFails es) w))
    = fallback_weather_data (self w).
Proof.
  revert w. induction es as [| e es IH]; intros w; [reflexivity |].
  cbn [List.map]. rewrite run_cons, IH. apply cycle_fallback.
Qed.

(** C8: as soon as the first call obtains a response, the fallback slot
    holds the empty mapping the current slot was constructed with, not the
    zero-filled snapshot.  It still does after any number of calls that
    get no response, and a call that then fails before a response binds
    the current slot to that empty mapping, whose lookup of
    [current_observation] finds no such key: the call raises [KeyError]. *)
Theorem empty_fallback :
  forall net : network,
    response_obtained net = true ->
    fallback_weather_data (self (cycle net startup)) = VDict ∅ /\
    fallback_weather_data (self (cycle net startup)) <> fallback_weather_data init /\
    forall (es : list exn) (e : exn),
      is_cancelled e = false ->
      let w := run (List.map RequestFails es) (cycle net startup) in
      fallback_weather_data (self w) = VDict ∅ /\
      weather_data (self (cycle (RequestFails e) w)) = VDict ∅ /\
      fst (get_weather_data (RequestFails e) w)
        = Raise (KeyError "current_observation").
Proof.
  intros net Hresp.
  assert (Hfirst : fallback_weather_data (self (cycle net startup)) = VDict ∅)
    by (rewrite cycle_fallback, Hresp; reflexivity).
  split; [exact Hfirst | split].
  { rewrite Hfirst. intros H. symmetry in H. revert H. apply init_snapshots_differ. }
  intros es e He w.
  assert (Hfb : fallback_weather_data (self w) = VDict ∅)
    by (unfold w; now rewrite run_request_fails_fallback).
  split; [exact Hfb | split].
  - rewrite cycle_weather_data, after_try_weather_data, He. exact Hfb.
  - rewrite get_weather_data_run. cbn [cancelled failure after_try].
    rewrite He, Hfb.
    now rewrite (project_no_temperature _ (KeyError "current_observation")).
Qed.

Lemma empty_fallback_witness :
  fst (get_weather_data (RequestFails (ClientError "connection refused"))
         (run (List.map RequestFails [CancelledError; TimeoutError])
              (cycle (Loaded docA) startup)))
    = Raise (KeyError "current_observation").
Proof.
  destruct (empty_fallback (Loaded docA) eq_refl) as (_ & _ & H).
  destruct (H [CancelledError; TimeoutError] (ClientError "connection refused") eq_refl)
    as (_ & _ & Hraise).
  exact Hraise.
Defined.

(** ** Success, two failures, success *)

Lemma exposed_store_attr n a v w : exposed n (store_attr a v w) = exposed n w.
Proof. reflexivity. Qed.

(** What the three assignments leave when all of them run. *)
Lemma stored_readings t p v w :
  registered (self w) ->
  exposed "temperature"
    (store "wind_speed" v (store_attr "barometric_pressure" p (store "temperature" t w)))
    = Some t /\
  exposed "wind_speed"
    (store "wind_speed" v (store_attr "barometric_pressure" p (store "temperature" t w)))
    = Some v /\
  instance_dict
    (self (store "wind_speed" v
             (store_attr "barometric_pressure" p (store "temperature" t w))))
    !! "barometric_pressure" = Some p /\
  exposed "barometric_pressure"
    (store "wind_speed" v (store_attr "barometric_pressure" p (store "temperature" t w)))
    = exposed "barometric_pressure" w.
Proof.
  intros Hr.
  assert (Htemp : is_Some (properties (self w) !! "temperature"))
    by (apply registered_lookup; [exact Hr | cbn; tauto]).
  assert (Hwind : is_Some (properties (self w) !! "wind_speed"))
    by (apply registered_lookup; [exact Hr | cbn; tauto]).
  split; [| split; [| split]].
  - rewrite exposed_store_ne, exposed_store_attr by discriminate.
    now apply exposed_store_eq.
  - apply exposed_store_eq. cbn. now rewrite lookup_alter_ne by discriminate.
  - cbn. apply lookup_insert_eq.
  - rewrite exposed_store_ne, exposed_store_attr by discriminate.
    now apply exposed_store_ne.
Qed.

(** An accepted document: its readings are assigned, except that the
    pressure goes to the instance attribute and not to the property. *)
Lemma cycle_loaded doc t p v w :
  registered (self w) ->
  has_readings doc t p v ->
  registered (self (cycle (Loaded doc) w)) /\
  exposed "temperature" (cycle (Loaded doc) w) = Some t /\
  exposed "wind_speed" (cycle (Loaded doc) w) = Some v /\
  instance_dict (self (cycle (Loaded doc) w)) !! "barometric_pressure" = Some p /\
  exposed "barometric_pressure" (cycle (Loaded doc) w)
    = exposed "barometric_pressure" w /\
  weather_data (self (cycle (Loaded doc) w)) = doc /\
  fallback_weather_data (self (cycle (Loaded doc) w)) = weather_data (self w).
Proof.
  intros Hr Hd.
  split; [now apply registered_cycle |].
  rewrite cycle_run. cbn [cancelled failure after_try].
  rewrite (project_ok _ t p v) by assumption. cbn [snd].
  destruct (stored_readings t p v (rebind (weather_data (self w)) doc w) Hr)
    as (Ht & Hv & Hp & Hb).
  repeat split; assumption.
Qed.

(** An ordinary failure after an accepted document changes none of the
    values shown. *)
Lemma holding_failure doc t p v net w :
  has_readings doc t p v ->
  fails net = true ->
  holding doc t p v w ->
  holding doc t p v (cycle net w).
Proof.
  intros Hd Hf (Hr & Ht & Hv & Hp & Hb & Hwd & Hfb).
  assert (Hc : cancelled net = false).
  { unfold fails in Hf. unfold cancelled.
    destruct (failure net); [| reflexivity].
    now destruct (is_cancelled e). }
  assert (Hslots :
    (weather_data (self (after_try net w)) = doc
     \/ weather_data (self (after_try net w)) = VDict ∅) /\
    (fallback_weather_data (self (after_try net w)) = doc
     \/ fallback_weather_data (self (after_try net w)) = VDict ∅)).
  { rewrite after_try_weather_data, after_try_fallback.
    destruct net as [e | e | d e | d]; cbn in Hf |- *; try discriminate;
      destruct (is_cancelled e); try discriminate; tauto. }
  destruct Hslots as [Hwd' Hfb'].
  assert (Hshown : forall n, exposed n (after_try net w) = exposed n w).
  { intros n. unfold exposed. now destruct (after_try_frame net w) as [-> _]. }
  assert (Hattr : instance_dict (self (after_try net w)) = instance_dict (self w))
    by now destruct (after_try_frame net w) as [_ ->].
  assert (Hr' : registered (self (after_try net w)))
    by now apply registered_after_try.
  rewrite cycle_run, Hc.
  destruct (project_frame (after_try net w)) as (Hf1 & Hf2 & _ & _).
  unfold holding. rewrite Hf1, Hf2.
  split; [now apply registered_project |].
  destruct Hwd' as [Hdoc | Hempty].
  - rewrite (project_ok _ t p v) by (try assumption; now rewrite Hdoc).
    cbn [snd].
    destruct (stored_readings t p v (after_try net w) Hr') as (Ht' & Hv' & Hp' & Hb').
    rewrite Ht', Hv', Hp', Hb', Hshown. tauto.
  - rewrite (project_no_temperature _ (KeyError "current_observation"))
      by now rewrite Hempty.
    cbn [snd]. rewrite !Hshown, Hattr. tauto.
Qed.

(** Along a run success(A), failure, failure, success(B) of a fresh
    station, temperature and wind speed show A, A, A, B, and so does the
    instance attribute written on line 88; the pressure property shows its
    initial value throughout. *)
Lemma fallback_run_values A tA pA wA B tB pB wB f1 f2 :
  has_readings A tA pA wA ->
  has_readings B tB pB wB ->
  fails f1 = true ->
  fails f2 = true ->
  let h := history [Loaded A; f1; f2; Loaded B] startup in
  List.map (exposed "temperature") h = [Some tA; Some tA; Some tA; Some tB] /\
  List.map (exposed "wind_speed") h = [Some wA; Some wA; Some wA; Some wB] /\
  List.map (fun w => instance_dict (self w) !! "barometric_pressure") h
    = [Some pA; Some pA; Some pA; Some pB] /\
  List.map (exposed "barometric_pressure") h
    = [Some (VNum 30); Some (VNum 30); Some (VNum 30); Some (VNum 30)].
Proof.
  intros HA HB Hf1 Hf2. cbn [history List.map].
  set (w1 := cycle (Loaded A) startup).
  set (w2 := cycle f1 w1).
  set (w3 := cycle f2 w2).
  destruct (cycle_loaded A tA pA wA startup registered_init HA)
    as (Hr1 & Ht1 & Hv1 & Hp1 & Hb1 & Hwd1 & Hfb1).
  fold w1 in Hr1, Ht1, Hv1, Hp1, Hb1, Hwd1, Hfb1.
  assert (H1 : holding A tA pA wA w1).
  { unfold holding. rewrite Hwd1, Hfb1. repeat split; try assumption; tauto. }
  assert (H2 : holding A tA pA wA w2) by now apply holding_failure.
  assert (H3 : holding A tA pA wA w3) by now apply holding_failure.
  destruct H2 as (_ & Ht2 & Hv2 & Hp2 & Hb2 & _).
  destruct H3 as (Hr3 & Ht3 & Hv3 & Hp3 & Hb3 & _).
  destruct (cycle_loaded B tB pB wB w3 Hr3 HB)
    as (_ & Ht4 & Hv4 & Hp4 & Hb4 & _).
  rewrite Ht1, Ht2, Ht3, Ht4, Hv1, Hv2, Hv3, Hv4, Hp1, Hp2, Hp3, Hp4.
  rewrite Hb4, Hb3, Hb2, Hb1. repeat split.
Qed.

(** C1, on the code: along the run success(A), failure, failure,
    success(B) the temperature and the wind speed are those of A, A, A, B,
    but the barometric pressure property keeps its initial value 30 after
    every cycle, although A reports 29 and B reports 28.  Line 88 assigns
    [barometric_pressure], the property is declared as
    [barometic_pressure]. *)
Theorem pressure_property_not_updated :
  List.map readings
    (history [Loaded docA;
              RequestFails TimeoutError;
              BodyFails (JSONDecodeError "Expecting value");
              Loaded docB] startup)
    = [(Some (VNum 50), Some (VNum 30), Some (VNum 5));
       (Some (VNum 50), Some (VNum 30), Some (VNum 5));
       (Some (VNum 50), Some (VNum 30), Some (VNum 5));
       (Some (VNum 61), Some (VNum 30), Some (VNum 7))]
  /\ has_readings docA (VNum 50) (VNum 29) (VNum 5)
  /\ has_readings docB (VNum 61) (VNum 28) (VNum 7).
Proof.
  split; [vm_compute; reflexivity |].
  split; apply has_readings_snapshot.
Qed.

(** * Further properties of the code *)

(** ** The resolver: what the template does to its arguments *)

Lemma create_url_run (NS ARGS : Type) (cfg : config) (ns : NS) (args : ARGS) :
  create_url cfg ns args =
    Some ("http://api.wunderground.com/api/" ++ weather_underground_api_key cfg
          ++ "/conditions/q/" ++ state_code cfg
          ++ "/" ++ city_name cfg ++ ".json")%string.
Proof. unfold create_url, url_template. cbn. reflexivity. Qed.

Lemma string_app_nil (b : string) : (EmptyString ++ b)%string = b.
Proof. reflexivity. Qed.

Lemma string_app_cons (c : ascii) (a b : string) :
  (String c a ++ b)%string = String c (a ++ b).
Proof. reflexivity. Qed.

Lemma string_length_app (a b : string) :
  String.length (a ++ b) = (String.length a + String.length b)%nat.
Proof.
  induction a as [| c a IH]; [reflexivity |].
  rewrite string_app_cons. cbn [String.length Nat.add]. now rewrite IH.
Qed.

Lemma string_app_assoc (a b c : string) : ((a ++ b) ++ c = a ++ b ++ c)%string.
Proof.
  induction a as [| x a IH]; [reflexivity |].
  rewrite !string_app_cons. now rewrite IH.
Qed.

Lemma string_app_inv_head (a x y : string) : (a ++ x = a ++ y)%string -> x = y.
Proof.
  induction a as [| c a IH]; intros H; [exact H |].
  rewrite !string_app_cons in H. injection H as H. now apply IH.
Qed.

Lemma string_app_inv_tail (a b t : string) : (a ++ t = b ++ t)%string -> a = b.
Proof.
  revert b. induction a as [| c a IH]; intros [| c' b] H.
  - reflexivity.
  - apply (f_equal String.length) in H.
    rewrite !string_length_app in H. cbn [String.length] in H. lia.
  - apply (f_equal String.length) in H.
    rewrite !string_length_app in H. cbn [String.length] in H. lia.
  - rewrite !string_app_cons in H. injection H as -> H. f_equal. now apply IH.
Qed.

(** A segment without separator is delimited by the separator after it. *)
Lemma string_app_slash_inj (a b r r' : string) :
  has_slash a = false ->
  has_slash b = false ->
  (a ++ String "/" r = b ++ String "/" r')%string ->
  a = b /\ r = r'.
Proof.
  revert b. induction a as [| c a IH]; intros [| c' b] Ha Hb H;
    rewrite ?string_app_nil, ?string_app_cons in H; cbn [has_slash] in Ha, Hb.
  - injection H as ->. split; reflexivity.
  - injection H as <- _. discriminate Hb.
  - injection H as -> _. discriminate Ha.
  - injection H as -> H.
    apply orb_false_iff in Ha as [_ Ha]. apply orb_false_iff in Hb as [_ Hb].
    destruct (IH b Ha Hb H) as [-> ->]. split; reflexivity.
Qed.

(** X1: when neither the API keys nor the state codes contain a slash,
    equal targets come from equal keys, equal state codes and equal city
    names: the address determines the three options it was built from. *)
Theorem create_url_injective :
  forall (NS ARGS NS' ARGS' : Type) (cfg cfg' : config)
         (ns : NS) (args : ARGS) (ns' : NS') (args' : ARGS'),
    has_slash (weather_underground_api_key cfg) = false ->
    has_slash (weather_underground_api_key cfg') = false ->
    has_slash (state_code cfg) = false ->
    has_slash (state_code cfg') = false ->
    create_url cfg ns args = create_url cfg' ns' args' ->
    weather_underground_api_key cfg = weather_underground_api_key cfg' /\
    state_code cfg = state_code cfg' /\
    city_name cfg = city_name cfg'.
Proof.
  intros NS ARGS NS' ARGS' cfg cfg' ns args ns' args' Hk Hk' Hs Hs' H.
  rewrite !create_url_run in H. injection H as H.
  apply string_app_inv_head in H.
  change ("/conditions/q/"
          ++ state_code cfg ++ "/" ++ city_name cfg ++ ".json")%string
    with (String "/" ("conditions/q/"
          ++ state_code cfg ++ "/" ++ city_name cfg ++ ".json"))%string in H.
  change ("/conditions/q/"
          ++ state_code cfg' ++ "/" ++ city_name cfg' ++ ".json")%string
    with (String "/" ("conditions/q/"
          ++ state_code cfg' ++ "/" ++ city_name cfg' ++ ".json"))%string in H.
  apply string_app_slash_inj in H as [Hkey H]; try assumption.
  apply string_app_inv_head in H.
  change ("/" ++ city_name cfg ++ ".json")%string
    with (String "/" (city_name cfg ++ ".json"))%string in H.
  change ("/" ++ city_name cfg' ++ ".json")%string
    with (String "/" (city_name cfg' ++ ".json"))%string in H.
  apply string_app_slash_inj in H as [Hstate H]; try assumption.
  apply string_app_inv_tail in H.
  split; [exact Hkey | split; [exact Hstate | exact H]].
Qed.

Lemma create_url_injective_witness :
  city_name default_config = "Corvallis".
Proof.
  refine (proj2 (proj2
    (create_url_injective unit unit nat bool default_config
       {| weather_underground_api_key := "not a real key";
          state_code := "OR";
          city_name := "Corvallis";
          seconds_for_timeout := 3 |}
       tt tt 0%nat true eq_refl eq_refl eq_refl eq_refl _))).
  reflexivity.
Defined.

(** X2: the arguments are inserted as they are, a slash in them is not
    escaped.  A slash at the end of the state code and the same slash at
    the start of the city name give the same target, so without the
    restriction of X1 different options can resolve to one address. *)
Theorem create_url_no_escaping :
  forall (key st part city : string) (timeout timeout' : Z),
    create_url {| weather_underground_api_key := key;
                  state_code := st ++ "/" ++ part;
                  city_name := city;
                  seconds_for_timeout := timeout |} tt tt
    = create_url {| weather_underground_api_key := key;
                    state_code := st;
                    city_name := part ++ "/" ++ city;
                    seconds_for_timeout := timeout' |} tt tt.
Proof.
  intros key st part city timeout timeout'.
  rewrite !create_url_run. cbn [weather_underground_api_key state_code city_name].
  do 3 f_equal.
  rewrite !string_app_assoc. reflexivity.
Qed.

(** ** An accepted document *)

(** X3: a call that loads a document carrying the three readings returns
    normally and logs nothing; temperature and wind speed show the
    document's values, its pressure is in the instance attribute
    [barometric_pressure], the current slot holds the document and the
    fallback slot holds what the current slot held before the call. *)
Theorem accepted_document :
  forall (doc t p v : value) (w : world),
    registered (self w) ->
    has_readings doc t p v ->
    fst (get_weather_data (Loaded doc) w) = Ok tt /\
    exposed "temperature" (cycle (Loaded doc) w) = Some t /\
    exposed "wind_speed" (cycle (Loaded doc) w) = Some v /\
    instance_dict (self (cycle (Loaded doc) w)) !! "barometric_pressure" = Some p /\
    weather_data (self (cycle (Loaded doc) w)) = doc /\
    fallback_weather_data (self (cycle (Loaded doc) w)) = weather_data (self w) /\
    log (cycle (Loaded doc) w) = log w.
Proof.
  intros doc t p v w Hr Hd.
  destruct (cycle_loaded doc t p v w Hr Hd) as (_ & Ht & Hv & Hp & _ & Hwd & Hfb).
  split; [| repeat split; try assumption].
  - rewrite get_weather_data_run. cbn [cancelled failure after_try].
    now rewrite (project_ok _ t p v).
  - rewrite cycle_run. cbn [cancelled failure after_try].
    now destruct (project_frame (rebind (weather_data (self w)) doc w))
      as (_ & _ & -> & _).
Qed.

Lemma accepted_document_witness :
  fst (get_weather_data (Loaded docA) startup) = Ok tt /\
  exposed "temperature" (cycle (Loaded docA) startup) = Some (VNum 50).
Proof.
  destruct (accepted_document docA (VNum 50) (VNum 29) (VNum 5) startup
              registered_init (has_readings_snapshot _ _ _))
    as (Hok & Ht & _).
  split; [exact Hok | exact Ht].
Defined.

(** ** The log *)

Lemma cycle_log net w : log (cycle net w) = (log w ++ critical_records net)%list.
Proof.
  assert (Hload : log (after_try net w) = (log w ++ critical_records net)%list).
  { unfold critical_records.
    destruct net as [e | e | doc e | doc]; cbn;
      try destruct (is_cancelled e); cbn; now rewrite ?app_nil_r. }
  rewrite cycle_run. destruct (cancelled net); [exact Hload |].
  destruct (project_frame (after_try net w)) as (_ & _ & Hl & _).
  now rewrite Hl.
Qed.

(** X4: the log of a run is the log it started with followed by one
    critical record, carrying the cause, for each call whose load failed
    with an ordinary exception, in the order of the calls.  Successful
    calls, cancelled calls and the lookup errors of lines 87 to 89 leave no
    record, and no record is ever removed. *)
Theorem log_of_run :
  forall (nets : list network) (w : world),
    log (run nets w) = (log w ++ flat_map critical_records nets)%list.
Proof.
  induction nets as [| net nets IH]; intros w.
  - cbn. now rewrite app_nil_r.
  - rewrite run_cons, IH, cycle_log. cbn [flat_map].
    now rewrite app_assoc.
Qed.

(** ** What a call never touches *)

Section Assignments.

Variable R : world -> world -> Prop.
Hypothesis R_refl : forall w, R w w.
Hypothesis R_trans : forall w1 w2 w3, R w1 w2 -> R w2 w3 -> R w1 w3.


End Assignments.









Lemma cycle_is_Some_exposed net w n :
  is_Some (exposed n (cycle net w)) <-> is_Some (exposed n w).
Proof.
  pose proof (cycle_metadata net w n) as H. unfold metadata, exposed in *.
  destruct (properties (self (cycle net w)) !! n), (properties (self w) !! n);
    cbn in *; try discriminate; split; intros [x Hx]; try discriminate Hx; eauto.
Qed.

(** X6: a run neither registers nor drops a property: a name has a value
    after the run exactly when it had one before.  On a freshly
    constructed station the three declared properties therefore always
    have a value, whatever the calls returned or raised. *)
Theorem properties_always_present :
  forall (nets : list network),
    (forall (w : world) (n : string),
        is_Some (exposed n (run nets w)) <-> is_Some (exposed n w)) /\
    is_Some (exposed "temperature" (run nets startup)) /\
    is_Some (exposed "barometric_pressure" (run nets startup)) /\
    is_Some (exposed "wind_speed" (run nets startup)).
Proof.
  intros nets.
  assert (Hrun : forall (w : world) (n : string),
             is_Some (exposed n (run nets w)) <-> is_Some (exposed n w)).
  { induction nets as [| net nets IH]; intros w n.
    - reflexivity.
    - rewrite run_cons, IH. apply cycle_is_Some_exposed. }
  split; [exact Hrun |].
  repeat split; apply Hrun; vm_compute; eauto.
Qed.

(** ** The snapshot substituted on failure *)

(** After an ordinary failure both slots hold one snapshot, and its
    readings, if it has them, are what the station shows. *)
Lemma cycle_substituted net t p v w :
  registered (self w) ->
  fails net = true ->
  has_readings (if response_obtained net then weather_data (self w)
                else fallback_weather_data (self w)) t p v ->
  fst (get_weather_data net w) = Ok tt /\
  registered (self (cycle net w)) /\
  exposed "temperature" (cycle net w) = Some t /\
  exposed "wind_speed" (cycle net w) = Some v /\
  instance_dict (self (cycle net w)) !! "barometric_pressure" = Some p /\
  weather_data (self (cycle net w))
    = (if response_obtained net then weather_data (self w)
       else fallback_weather_data (self w)) /\
  fallback_weather_data (self (cycle net w))
    = (if response_obtained net then weather_data (self w)
       else fallback_weather_data (self w)).
Proof.
  intros Hr Hf Hd.
  assert (Hc : cancelled net = false).
  { unfold fails in Hf. unfold cancelled.
    destruct (failure net); [| reflexivity].
    now destruct (is_cancelled e). }
  assert (Hwd : weather_data (self (after_try net w))
                = if response_obtained net then weather_data (self w)
                  else fallback_weather_data (self w)).
  { rewrite after_try_weather_data.
    destruct net as [e | e | d e | d]; cbn in Hf |- *; try discriminate;
      destruct (is_cancelled e); try discriminate; reflexivity. }
  assert (Hr' : registered (self (after_try net w)))
    by now apply registered_after_try.
  assert (Hproj : project (after_try net w) =
            (Ok tt, store "wind_speed" v
                      (store_attr "barometric_pressure" p
                         (store "temperature" t (after_try net w)))))
    by (apply project_ok; [exact Hr' | now rewrite Hwd]).
  split; [now rewrite get_weather_data_run, Hc, Hproj |].
  split; [now apply registered_cycle |].
  rewrite cycle_fallback, cycle_weather_data, Hwd.
  rewrite cycle_run, Hc, Hproj. cbn [snd].
  destruct (stored_readings t p v (after_try net w) Hr') as (Ht' & Hv' & Hp' & _).
  repeat split; assumption.
Qed.



(** X8: the fallback slot lags one response behind.  After two documents
    A and B have been accepted in a row, a call whose request fails before
    any response returns normally and puts the station back on the
    readings of A, the older document, not on those of B. *)
Theorem request_failure_shows_older_document :
  forall (A tA pA wA B tB pB wB : value) (e : exn) (w : world),
    registered (self w) ->
    has_readings A tA pA wA ->
    has_readings B tB pB wB ->
    is_cancelled e = false ->
    exposed "temperature" (run [Loaded A; Loaded B] w) = Some tB /\
    exposed "wind_speed" (run [Loaded A; Loaded B] w) = Some wB /\
    fst (get_weather_data (RequestFails e) (run [Loaded A; Loaded B] w)) = Ok tt /\
    exposed "temperature" (run [Loaded A; Loaded B; RequestFails e] w) = Some tA /\
    exposed "wind_speed" (run [Loaded A; Loaded B; RequestFails e] w) = Some wA /\
    weather_data (self (run [Loaded A; Loaded B; RequestFails e] w)) = A.
Proof.
  intros A tA pA wA B tB pB wB e w Hr HA HB He.
  change (run [Loaded A; Loaded B; RequestFails e] w)
    with (cycle (RequestFails e) (run [Loaded A; Loaded B] w)).
  change (run [Loaded A; Loaded B] w)
    with (cycle (Loaded B) (cycle (Loaded A) w)).
  destruct (cycle_loaded A tA pA wA w Hr HA) as (Hr1 & _ & _ & _ & _ & Hwd1 & _).
  destruct (cycle_loaded B tB pB wB _ Hr1 HB) as (Hr2 & Ht2 & Hv2 & _ & _ & _ & Hfb2).
  rewrite Hwd1 in Hfb2.
  destruct (cycle_substituted (RequestFails e) tA pA wA
              (cycle (Loaded B) (cycle (Loaded A) w)))
    as (Hok & _ & Ht & Hv & _ & Hwd & _).
  - exact Hr2.
  - cbn. now rewrite He.
  - cbn [response_obtained]. now rewrite Hfb2.
  - cbn [response_obtained] in Hwd. rewrite Hfb2 in Hwd.
    repeat split; assumption.
Qed.

Lemma request_failure_shows_older_document_witness :
  exposed "temperature"
    (run [Loaded docA; Loaded docB; RequestFails TimeoutError] startup)
  = Some (VNum 50).
Proof.
  destruct (request_failure_shows_older_document
              docA (VNum 50) (VNum 29) (VNum 5)
              docB (VNum 61) (VNum 28) (VNum 7)
              TimeoutError startup registered_init
              (has_readings_snapshot _ _ _) (has_readings_snapshot _ _ _) eq_refl)
    as (_ & _ & _ & Ht & _).
  exact Ht.
Defined.

(** ** Repeated failures *)

Lemma after_try_same_slots net w :
  fails net = true ->
  weather_data (self w) = fallback_weather_data (self w) ->
  self (after_try net w) = self w.
Proof.
  destruct w as [[fb wd ps attrs] l]. cbn. intros Hf ->.
  destruct net as [e | e | d e | d]; cbn in Hf |- *; try discriminate;
    destruct (is_cancelled e); try discriminate; reflexivity.
Qed.

Lemma with_value_twice (m : gmap string wot_property) n v :
  alter (with_value v) n (alter (with_value v) n m) = alter (with_value v) n m.
Proof.
  apply map_eq. intros k.
  destruct (decide (n = k)) as [<- | Hne].
  - rewrite !lookup_alter_eq. destruct (m !! n); reflexivity.
  - now rewrite !lookup_alter_ne.
Qed.

Lemma with_value_twice_two (m : gmap string wot_property) n n' v v' :
  n <> n' ->
  alter (with_value v) n
    (alter (with_value v') n' (alter (with_value v) n (alter (with_value v') n' m)))
  = alter (with_value v) n (alter (with_value v') n' m).
Proof.
  intros Hnn. apply map_eq. intros k.
  destruct (decide (n = k)) as [<- | Hne].
  - rewrite !lookup_alter_eq, !lookup_alter_ne, !lookup_alter_eq by congruence.
    rewrite !lookup_alter_ne by congruence.
    destruct (m !! n); reflexivity.
  - rewrite !(lookup_alter_ne _ _ n) by assumption.
    destruct (decide (n' = k)) as [<- | Hne'].
    + rewrite !lookup_alter_eq, !lookup_alter_ne, !lookup_alter_eq by congruence.
      destruct (m !! n'); reflexivity.
    + now rewrite !lookup_alter_ne by assumption.
Qed.

Lemma store_twice n v w : self (store n v (store n v w)) = self (store n v w).
Proof. cbn. f_equal. apply with_value_twice. Qed.

(** Running the three assignments again on the state they left changes
    nothing and ends the same way. *)
Lemma project_idempotent w :
  registered (self w) ->
  fst (project (snd (project w))) = fst (project w) /\
  self (snd (project (snd (project w)))) = self (snd (project w)).
Proof.
  intros Hr.
  pose proof (registered_project w Hr) as HrW.
  destruct (lookup_observation (weather_data (self w)) "temp_f") as [t | e] eqn:Ht.
  2:{ rewrite (project_no_temperature w e) by assumption. cbn [snd fst].
      rewrite (project_no_temperature w e) by assumption. split; reflexivity. }
  destruct (lookup_observation (weather_data (self w)) "pressure_in") as [p | e] eqn:Hp.
  2:{ rewrite (project_no_pressure w t e) in HrW |- * by assumption.
      cbn [snd fst] in HrW |- *.
      rewrite (project_no_pressure _ t e) by assumption. cbn [snd fst].
      split; [reflexivity | apply store_twice]. }
  destruct (lookup_observation (weather_data (self w)) "wind_mph") as [v | e] eqn:Hv.
  2:{ rewrite (project_no_wind w t p e) in HrW |- * by assumption.
      cbn [snd fst] in HrW |- *.
      rewrite (project_no_wind _ t p e) by assumption. cbn [snd fst].
      split; [reflexivity |]. cbn. f_equal.
      - apply with_value_twice.
      - apply insert_insert_eq. }
  assert (Hd : has_readings (weather_data (self w)) t p v) by (repeat split; assumption).
  rewrite (project_ok w t p v) in HrW |- * by assumption.
  cbn [snd fst] in HrW |- *.
  rewrite (project_ok _ t p v) by assumption. cbn [snd fst].
  split; [reflexivity |]. cbn. f_equal.
  - apply with_value_twice_two. discriminate.
  - apply insert_insert_eq.
Qed.

(** X9: consecutive ordinary failures collapse.  Once one call has failed
    with an ordinary exception, a second such failure, at whatever point
    and with whatever cause, ends the same way as the first (returns, or
    raises the same lookup error) and leaves the instance exactly as the
    first left it; only the log grows. *)
Theorem repeated_failure_changes_nothing :
  forall (f1 f2 : network) (w : world),
    registered (self w) ->
    fails f1 = true ->
    fails f2 = true ->
    fst (get_weather_data f2 (cycle f1 w)) = fst (get_weather_data f1 w) /\
    self (cycle f2 (cycle f1 w)) = self (cycle f1 w).
Proof.
  intros f1 f2 w Hr Hf1 Hf2.
  assert (Hnc : forall net, fails net = true -> cancelled net = false).
  { intros net Hf. unfold fails in Hf. unfold cancelled.
    destruct (failure net); [| reflexivity]. now destruct (is_cancelled e). }
  assert (Hslots : weather_data (self (cycle f1 w))
                   = fallback_weather_data (self (cycle f1 w))).
  { rewrite cycle_fallback, cycle_weather_data, after_try_weather_data.
    destruct f1 as [e | e | d e | d]; cbn in Hf1 |- *; try discriminate;
      destruct (is_cancelled e); try discriminate; reflexivity. }
  pose proof (after_try_same_slots f2 (cycle f1 w) Hf2 Hslots) as Hself.
  destruct (project_same_self _ _ Hself) as [Hres Hst].
  destruct (project_idempotent (after_try f1 w)) as [Hres' Hst'];
    [now apply registered_after_try |].
  assert (E1 : cycle f1 w = snd (project (after_try f1 w)))
    by (rewrite cycle_run; now rewrite (Hnc f1 Hf1)).
  split.
  - rewrite (get_weather_data_run f2), (Hnc f2 Hf2), Hres, E1, Hres'.
    now rewrite get_weather_data_run, (Hnc f1 Hf1).
  - rewrite (cycle_run f2), (Hnc f2 Hf2), Hst, E1. exact Hst'.
Qed.

Lemma repeated_failure_changes_nothing_witness :
  self (cycle (RequestFails TimeoutError) (cycle (BodyFails TimeoutError) startup))
  = self (cycle (BodyFails TimeoutError) startup).
Proof.
  exact (proj2 (repeated_failure_changes_nothing
                  (BodyFails TimeoutError) (RequestFails TimeoutError) startup
                  registered_init eq_refl eq_refl)).
Defined.

(** ** A document without readings *)

(** X10: a parsed document whose first lookup fails is kept in the current
    slot all the same.  A later call that obtains a response and then
    fails with an ordinary exception therefore raises the same lookup
    error again and leaves that document in both slots: failures do not
    bring the station back to the snapshot it had before the document. *)
Theorem document_without_readings_is_kept :
  forall (doc : value) (e : exn) (w : world),
    lookup_observation doc "temp_f" = Raise e ->
    weather_data (self (cycle (Loaded doc) w)) = doc /\
    forall net : network,
      fails net = true ->
      response_obtained net = true ->
      fst (get_weather_data net (cycle (Loaded doc) w)) = Raise e /\
      weather_data (self (cycle net (cycle (Loaded doc) w))) = doc /\
      fallback_weather_data (self (cycle net (cycle (Loaded doc) w))) = doc.
Proof.
  intros doc e w He.
  assert (Hwd : weather_data (self (cycle (Loaded doc) w)) = doc)
    by now rewrite cycle_weather_data.
  split; [exact Hwd |].
  intros net Hf Hresp.
  assert (Hc : cancelled net = false).
  { unfold fails in Hf. unfold cancelled.
    destruct (failure net); [| reflexivity]. now destruct (is_cancelled e0). }
  assert (Hwd' : weather_data (self (after_try net (cycle (Loaded doc) w))) = doc).
  { rewrite after_try_weather_data, Hwd.
    destruct net as [x | x | d x | d]; cbn in Hf, Hresp |- *; try discriminate;
      destruct (is_cancelled x); try discriminate; reflexivity. }
  split; [| split].
  - rewrite get_weather_data_run, Hc.
    now rewrite (project_no_temperature _ e) by now rewrite Hwd'.
  - now rewrite cycle_weather_data.
  - now rewrite cycle_fallback, Hresp.
Qed.

Lemma document_without_readings_is_kept_witness :
  fst (get_weather_data (BodyFails TimeoutError)
         (cycle (Loaded (VList [])) (cycle (Loaded docA) startup)))
  = Raise TypeError.
Proof.
  destruct (document_without_readings_is_kept
              (VList []) TypeError (cycle (Loaded docA) startup) eq_refl)
    as [_ H].
  exact (proj1 (H (BodyFails TimeoutError) eq_refl eq_refl)).
Defined.

Lemma properties_always_present_witness :
  is_Some (exposed "wind_speed"
             (run [Loaded (VList []); RequestFails CancelledError] startup)).
Proof.
  exact (proj2 (proj2 (proj2
    (properties_always_present
       [Loaded (VList []); RequestFails CancelledError])))).
Defined.
